(** * Violent Crime Risk Predictor: the prediction handler of [app.py]

    A shallow embedding of the part of the Streamlit script that runs when
    the "Predict Risk" button is pressed: the feature dictionary, the
    one-row data frame and its column selection, the call of the classifier,
    the rounding of the positive-class probability and the risk tier.

    Python [int]s are [Z], Python [float]s are binary64 numbers
    ([PrimFloat.float]), strings are [string], the feature [dict] is an
    association list in insertion order (pandas keeps that order for the
    columns of the frame), exceptions are values of [exn] carried by
    [result], and what the script shows on the page or hands to the
    classifier is threaded through an explicit [world].  A run ends normally,
    by [st.stop()], or by an exception no handler catches. *)

From Stdlib Require Import ZArith List String Bool Lia Permutation.
From Stdlib Require Import Floats.
Import ListNotations.

Set Warnings "-inexact-float".

Local Open Scope string_scope.
Local Open Scope list_scope.
Local Open Scope Z_scope.

(** ** Python values and exceptions *)

(** A cell of the data frame: an integer column holds [int]s, a float column
    holds binary64 numbers. *)
Inductive scalar : Type :=
| PyInt (z : Z)
| PyFloat (f : float).

(** The exceptions the handler can meet.  [KeyError] carries the labels that
    were not found; [ClassifierError] stands for any other exception of the
    class [Exception] the classifier raises (the classifier is an external
    object); [BaseExceptionOnly] is a raise outside [Exception]:
    [KeyboardInterrupt], [SystemExit] and the like, which [except Exception]
    does not catch. *)
Inductive exn : Type :=
| KeyError (labels : list string)
| IndexError
| ClassifierError (msg : string)
| BaseExceptionOnly (name : string).

(** [isinstance(e, Exception)] *)
Definition is_Exception (e : exn) : bool :=
  match e with
  | BaseExceptionOnly _ => false
  | _ => true
  end.

Inductive result (A : Type) : Type :=
| Ok (a : A)
| Raise (e : exn).
Arguments Ok {A} a.
Arguments Raise {A} e.

Definition rbind {A B} (r : result A) (k : A -> result B) : result B :=
  match r with
  | Ok a => k a
  | Raise e => Raise e
  end.

Notation "x <-? r ; k" := (rbind r (fun x => k))
  (at level 61, r at next level, right associativity).

(** ** The form: widget values (lines 58-121) *)

(** [datetime.date] and [datetime.time] as the script uses them. *)
Record date : Type := mkDate { year : Z; month : Z; day : Z }.
Record time : Type := mkTime { hour : Z; minute : Z; second : Z }.

Definition _is_leap (y : Z) : bool :=
  (y mod 4 =? 0) && (negb (y mod 100 =? 0) || (y mod 400 =? 0)).

Definition _days_before_year (y : Z) : Z :=
  let y := y - 1 in y * 365 + y / 4 - y / 100 + y / 400.

Definition _DAYS_BEFORE_MONTH : list Z :=
  [-1; 0; 31; 59; 90; 120; 151; 181; 212; 243; 273; 304; 334].

Definition _days_before_month (y m : Z) : Z :=
  nth (Z.to_nat m) _DAYS_BEFORE_MONTH 0
  + (if (2 <? m) && _is_leap y then 1 else 0).

Definition toordinal (d : date) : Z :=
  _days_before_year (year d) + _days_before_month (year d) (month d) + day d.

(** [date.weekday()]: Monday is 0, Sunday is 6. *)
Definition weekday (d : date) : Z := (toordinal d + 6) mod 7.

(** The values of the widgets when the button is pressed. *)
Record widgets : Type := mkWidgets {
  latitude : float;
  longitude : float;
  report_datetime : date;
  report_time : time;
  victim_age : Z;
  police_deployed : Z;
  victim_gender : string;
  weapon_used : string;
  case_closed : string
}.

(** The options of the three choice widgets (lines 104, 111, 117). *)
Definition victim_gender_options : list string :=
  ["Male"; "Other"; "X"; "Female"].

Definition weapon_used_options : list string :=
  ["Blunt Object"; "Explosives"; "Firearm"; "Knife"; "None"; "Other";
   "Poison"; "Unknown"].

Definition case_closed_options : list string := ["No"; "Yes"].

(** Lines 81-83. *)
Definition report_hour (w : widgets) : Z := hour (report_time w).
Definition report_day_of_week (w : widgets) : Z := weekday (report_datetime w).
Definition report_month (w : widgets) : Z := month (report_datetime w).

(** What the widgets can deliver: the bounds and options they are built
    with. *)
Definition valid_widgets (w : widgets) : Prop :=
  (-90 <=? latitude w)%float = true /\ (latitude w <=? 90)%float = true /\
  (-180 <=? longitude w)%float = true /\ (longitude w <=? 180)%float = true /\
  0 <= victim_age w <= 100 /\
  1 <= police_deployed w <= 50 /\
  0 <= report_hour w <= 23 /\
  1 <= report_month w <= 12 /\
  In (victim_gender w) victim_gender_options /\
  In (weapon_used w) weapon_used_options /\
  In (case_closed w) case_closed_options.

(** ** The feature dictionary and the data frame (lines 128-183) *)

(** A [dict] from column name to column, in insertion order. *)
Definition dict : Type := list (string * list scalar).

Fixpoint dict_get (k : string) (d : dict) : option (list scalar) :=
  match d with
  | [] => None
  | (k', v) :: d' => if String.eqb k k' then Some v else dict_get k d'
  end.

(** [d[k] = v]: a present key keeps its place and takes the new value, a new
    key goes last. *)
Fixpoint dict_set (k : string) (v : list scalar) (d : dict) : dict :=
  match d with
  | [] => [(k, v)]
  | (k', v') :: d' =>
      if String.eqb k k' then (k', v) :: d' else (k', v') :: dict_set k v d'
  end.

(** A dict display [{k1: v1, ..., kn: vn}] sets its items from left to
    right. *)
Definition dict_display (items : list (string * list scalar)) : dict :=
  fold_left (fun d kv => dict_set (fst kv) (snd kv) d) items [].

(** [1 if a == b else 0] *)
Definition indicator (a b : string) : Z :=
  if String.eqb a b then 1 else 0.

Definition dummy (a b : string) : scalar := PyInt (indicator a b).

(** Lines 128-154. *)
Definition data (w : widgets) : dict :=
  dict_display
    [ ("victim_age", [PyInt (victim_age w)]);
      ("police_deployed", [PyInt (police_deployed w)]);
      ("latitude", [PyFloat (latitude w)]);
      ("longitude", [PyFloat (longitude w)]);
      ("report_hour", [PyInt (report_hour w)]);
      ("report_day_of_week", [PyInt (report_day_of_week w)]);
      ("report_month", [PyInt (report_month w)]);
      ("case_closed_Yes", [dummy (case_closed w) "Yes"]);
      ("victim_gender_M", [dummy (victim_gender w) "Male"]);
      ("victim_gender_X", [dummy (victim_gender w) "X"]);
      ("weapon_used_Firearm", [dummy (weapon_used w) "Firearm"]);
      ("weapon_used_Explosives", [dummy (weapon_used w) "Explosives"]);
      ("weapon_used_Knife", [dummy (weapon_used w) "Knife"]);
      ("weapon_used_Other", [dummy (weapon_used w) "Other"]);
      ("weapon_used_Poison", [dummy (weapon_used w) "Poison"]);
      ("weapon_used_Unknown", [dummy (weapon_used w) "Unknown"]) ].

(** A data frame: its columns, in order, each with its label. *)
Definition DataFrame : Type := list (string * list scalar).

(** [pd.DataFrame(data)] for a dict of lists: one column per key, in the
    order of the dict. *)
Definition pd_DataFrame (d : dict) : DataFrame := d.

(** Lines 160-177. *)
Definition expected_columns : list string :=
  [ "victim_age";
    "police_deployed";
    "latitude";
    "longitude";
    "report_hour";
    "report_day_of_week";
    "report_month";
    "victim_gender_M";
    "victim_gender_X";
    "weapon_used_Explosives";
    "weapon_used_Firearm";
    "weapon_used_Knife";
    "weapon_used_Other";
    "weapon_used_Poison";
    "weapon_used_Unknown";
    "case_closed_Yes" ].

(** The labels of [cols] that are no column of [df], each named once. *)
Definition missing_labels (df : DataFrame) (cols : list string) : list string :=
  nodup string_dec
    (filter (fun c => match dict_get c df with None => true | Some _ => false end)
            cols).

(** The columns of [df] under the label [c], in the order of [df]: a frame
    can carry a label more than once. *)
Definition columns_labelled (df : DataFrame) (c : string) : DataFrame :=
  filter (fun col => String.eqb (fst col) c) df.

(** [df[cols]] with a list of labels: for each label of [cols] in turn, the
    columns of [df] under that label; [KeyError] when a label is no column of
    [df]. *)
Definition getitem_columns (df : DataFrame) (cols : list string)
  : result DataFrame :=
  match missing_labels df cols with
  | [] => Ok (flat_map (columns_labelled df) cols)
  | missing => Raise (KeyError missing)
  end.

(** The labels of a frame and its first row. *)
Definition columns (df : DataFrame) : list string := map fst df.

Definition row0 (df : DataFrame) : list (option scalar) :=
  map (fun c => hd_error (snd c)) df.

(** [df[label][0]] *)
Definition cell (df : DataFrame) (label : string) : option scalar :=
  match dict_get label df with
  | Some (x :: _) => Some x
  | _ => None
  end.

(** The encoder as a function: lines 128-180 without the page. *)
Definition encode (w : widgets) : result DataFrame :=
  getitem_columns (pd_DataFrame (data w)) expected_columns.

(** The frame the encoder is expected to build, written out. *)
Definition feature_frame (w : widgets) : DataFrame :=
  [ ("victim_age", [PyInt (victim_age w)]);
    ("police_deployed", [PyInt (police_deployed w)]);
    ("latitude", [PyFloat (latitude w)]);
    ("longitude", [PyFloat (longitude w)]);
    ("report_hour", [PyInt (report_hour w)]);
    ("report_day_of_week", [PyInt (report_day_of_week w)]);
    ("report_month", [PyInt (report_month w)]);
    ("victim_gender_M", [dummy (victim_gender w) "Male"]);
    ("victim_gender_X", [dummy (victim_gender w) "X"]);
    ("weapon_used_Explosives", [dummy (weapon_used w) "Explosives"]);
    ("weapon_used_Firearm", [dummy (weapon_used w) "Firearm"]);
    ("weapon_used_Knife", [dummy (weapon_used w) "Knife"]);
    ("weapon_used_Other", [dummy (weapon_used w) "Other"]);
    ("weapon_used_Poison", [dummy (weapon_used w) "Poison"]);
    ("weapon_used_Unknown", [dummy (weapon_used w) "Unknown"]);
    ("case_closed_Yes", [dummy (case_closed w) "Yes"]) ].

(** ** The risk classifier adapter (lines 187-222) *)

(** [numpy.rint] in the default rounding mode: the nearest integer, ties to
    even.  Below 2^52 adding and subtracting 2^52 rounds to an integer;
    from 2^52 on every binary64 number is an integer. *)
Definition two52 : float := 4503599627370496%float.

Definition rint (x : float) : float :=
  if (abs x <? two52)%float then
    let r := (abs x + two52 - two52)%float in
    if get_sign x then (- r)%float else r
  else x.

(** [round(x, decimals)] on a [numpy.float64] is [numpy.round]: multiply by
    [10**decimals], [rint], divide. *)
Definition pow10 (decimals : nat) : float :=
  of_uint63 (Uint63.of_Z (10 ^ Z.of_nat decimals)).

Definition round (x : float) (decimals : nat) : float :=
  (rint (x * pow10 decimals) / pow10 decimals)%float.

(** The array [predict_proba] returns for a binary classifier: one row
    (probability of the negative class, probability of the positive class)
    per row of the frame. *)
Definition ndarray2 : Type := list (float * float).

(** [a[:, 1]] *)
Definition column1 (a : ndarray2) : list float := map snd a.

(** [v[0]] *)
Definition item0 (v : list float) : result float :=
  match v with
  | [] => Raise IndexError
  | x :: _ => Ok x
  end.

(** Line 190, from the array the classifier returned. *)
Definition prediction_score (proba : ndarray2) : result float :=
  prediction_proba <-? item0 (column1 proba) ;
  Ok (round (prediction_proba * 100)%float 2).

Inductive tier : Type := LOW | MODERATE | HIGH.

(** Lines 197-205: [prediction_score >= 70], then [prediction_score >= 40]. *)
Definition risk_level (prediction_score : float) : tier :=
  if (70 <=? prediction_score)%float then HIGH
  else if (40 <=? prediction_score)%float then MODERATE
  else LOW.

Definition risk_label (t : tier) : string :=
  match t with
  | HIGH => "HIGH RISK"
  | MODERATE => "MODERATE RISK"
  | LOW => "LOW RISK"
  end.

Definition color (t : tier) : string :=
  match t with
  | HIGH => "#ff4d4d"
  | MODERATE => "#ffc300"
  | LOW => "#32cd32"
  end.

(** The order of the tiers. *)
Definition tier_rank (t : tier) : nat :=
  match t with LOW => 0 | MODERATE => 1 | HIGH => 2 end.

Definition tier_le (a b : tier) : Prop := (tier_rank a <= tier_rank b)%nat.

(** ** The page and the script *)

(** What the handler puts on the page. *)
Inductive element : Type :=
| feature_mismatch_error (e : exn)      (* line 182 *)
| prediction_error (e : exn)            (* line 222 *)
| rule                                  (* st.markdown("---") *)
| subheader (text : string)
| result_card (card_color : string) (score : float) (level : string)
| caption (text : string).

(** The state a run of the script can touch: the page, and the frames that
    were handed to the classifier. *)
Record world : Type := mkWorld {
  page : list element;
  calls : list DataFrame
}.

(** [st.stop()] ends the run; nothing after it is executed.  An exception no
    handler catches ends the run as well, and leaves the script. *)
Inductive flow (A : Type) : Type :=
| Continue (a : A)
| Stopped
| Uncaught (e : exn).
Arguments Continue {A} a.
Arguments Stopped {A}.
Arguments Uncaught {A} e.

Definition script (A : Type) : Type := world -> flow A * world.

Definition ret {A} (a : A) : script A := fun s => (Continue a, s).

Definition bind {A B} (m : script A) (k : A -> script B) : script B :=
  fun s =>
    match m s with
    | (Continue a, s') => k a s'
    | (Stopped, s') => (Stopped, s')
    | (Uncaught e, s') => (Uncaught e, s')
    end.

Notation "x <- m ;; k" := (bind m (fun x => k))
  (at level 61, m at next level, right associativity).
Notation "m ;; k" := (bind m (fun _ => k))
  (at level 61, right associativity).

Definition show (e : element) : script unit :=
  fun s => (Continue tt, {| page := page s ++ [e]; calls := calls s |}).

Definition st_stop {A} : script A := fun s => (Stopped, s).

(** An exception that leaves the [try] statement it was raised in. *)
Definition uncaught {A} (e : exn) : script A := fun s => (Uncaught e, s).

Section Handler.

(** The loaded classifier: its [predict_proba] either raises or returns
    the array of class probabilities. *)
Variable predict_proba : DataFrame -> result ndarray2.

Definition model_predict_proba (df : DataFrame) : script (result ndarray2) :=
  fun s => (Continue (predict_proba df),
            {| page := page s; calls := calls s ++ [df] |}).

(** Lines 128-183: the encoder inside the script. *)
Definition encode_step (w : widgets) : script DataFrame :=
  let input_df := pd_DataFrame (data w) in
  match getitem_columns input_df expected_columns with
  | Ok input_df => ret input_df
  | Raise (KeyError labels) =>
      show (feature_mismatch_error (KeyError labels)) ;; st_stop
  | Raise e => uncaught e
  end.

(** Lines 187-222: [except Exception] catches the exceptions of the class
    [Exception]; any other raise leaves the handler. *)
Definition predict_step (input_df : DataFrame) : script unit :=
  r <- model_predict_proba input_df ;;
  match (proba <-? r ; prediction_score proba) with
  | Ok score =>
      show rule ;;
      show (subheader "Prediction Result") ;;
      let level := risk_level score in
      show (result_card (color level) score (risk_label level))
  | Raise e =>
      if is_Exception e then show (prediction_error e) else uncaught e
  end.

(** The body of [if st.button('Predict Risk', ...)]. *)
Definition on_predict (w : widgets) : script unit :=
  input_df <- encode_step w ;;
  predict_step input_df.

(** Lines 225-226. *)
Definition footer : script unit :=
  show rule ;;
  show (caption "This application uses a Random Forest Classifier trained on sample Indian crime data (Project Version 3).").

(** One run of the script from line 125 on, with the button pressed. *)
Definition run (w : widgets) : script unit :=
  on_predict w ;; footer.

(** A session: one run per pressed button, in order. *)
Fixpoint session (ws : list widgets) (s : world) : world :=
  match ws with
  | [] => s
  | w :: ws' => session ws' (snd (run w s))
  end.

End Handler.

(** The result cards of a page. *)
Definition is_result_card (e : element) : bool :=
  match e with
  | result_card _ _ _ => true
  | _ => false
  end.

Definition result_cards (p : list element) : list element :=
  filter is_result_card p.


(** The six weapon dummies of a frame, in the order of [expected_columns],
    and the two gender dummies. *)
Definition weapon_columns : list string :=
  [ "weapon_used_Explosives"; "weapon_used_Firearm"; "weapon_used_Knife";
    "weapon_used_Other"; "weapon_used_Poison"; "weapon_used_Unknown" ].

Definition gender_columns : list string :=
  [ "victim_gender_M"; "victim_gender_X" ].

Definition cells (df : DataFrame) (labels : list string) : list (option scalar) :=
  map (cell df) labels.

Definition ints (zs : list Z) : list (option scalar) :=
  map (fun z => Some (PyInt z)) zs.

(** [float(k)] for a small non-negative integer, and the probability with
    four decimals [k / 10000]. *)
Definition float_of_Z (k : Z) : float := of_uint63 (Uint63.of_Z k).

Definition basis_points (k : Z) : float := (float_of_Z k / 10000)%float.

(** Whether the score of the probability [k / 10000] is the binary64 number
    [k / 100]. *)
Definition score_is_hundredths (k : Z) : bool :=
  match prediction_score [(0%float, basis_points k)] with
  | Ok x => PrimFloat.Leibniz.eqb x (float_of_Z k / 100)%float
  | Raise _ => false
  end.

(** ** Forms and classifiers used as examples *)

(** The default form on Wednesday 4 June 2025 at 10:00. *)
Definition scenario_form : widgets :=
  {| latitude := 28.70%float;
     longitude := 77.10%float;
     report_datetime := mkDate 2025 6 4;
     report_time := mkTime 10 0 0;
     victim_age := 35;
     police_deployed := 15;
     victim_gender := "Female";
     weapon_used := "Firearm";
     case_closed := "No" |}.

Definition with_weapon (w : widgets) (v : string) : widgets :=
  {| latitude := latitude w;
     longitude := longitude w;
     report_datetime := report_datetime w;
     report_time := report_time w;
     victim_age := victim_age w;
     police_deployed := police_deployed w;
     victim_gender := victim_gender w;
     weapon_used := v;
     case_closed := case_closed w |}.

Definition with_gender (w : widgets) (v : string) : widgets :=
  {| latitude := latitude w;
     longitude := longitude w;
     report_datetime := report_datetime w;
     report_time := report_time w;
     victim_age := victim_age w;
     police_deployed := police_deployed w;
     victim_gender := v;
     weapon_used := weapon_used w;
     case_closed := case_closed w |}.

(** A weapon the select box does not offer. *)
Definition sword_form : widgets := with_weapon scenario_form "Sword".

(** A classifier that answers every frame with the same row, and one that
    rejects every frame. *)
Definition constant_classifier (pNeg pPos : float)
  : DataFrame -> result ndarray2 :=
  fun _ => Ok [(pNeg, pPos)].


Definition empty_world : world := {| page := []; calls := [] |}.

(** What the specification asks of the encoder on an unrecognized weapon: no
    frame, and no call of the classifier in the run. *)
Definition schema_mismatch
    (predict_proba : DataFrame -> result ndarray2) (w : widgets) (s : world)
  : Prop :=
  (exists e, encode w = Raise e) /\
  calls (snd (run predict_proba w s)) = calls s.

(** ** The handler on any frame (lines 179-222) *)

(** Lines 179-183: the selection of the expected columns, the feature
    mismatch error and [st.stop()], for whatever frame [input_df] is. *)
Definition select_expected_columns (input_df : DataFrame) : script DataFrame :=
  match getitem_columns input_df expected_columns with
  | Ok input_df => ret input_df
  | Raise (KeyError labels) =>
      show (feature_mismatch_error (KeyError labels)) ;; st_stop
  | Raise e => uncaught e
  end.

(** Lines 179-222 from the frame built at line 157. *)
Definition on_predict_frame
    (predict_proba : DataFrame -> result ndarray2) (frame : DataFrame)
  : script unit :=
  input_df <- select_expected_columns frame ;;
  predict_step predict_proba input_df.

(** A frame as line 157 built it before the Firearm dummy was added to the
    dictionary (the comment of line 144): the default form without that
    column. *)
Definition frame_without_firearm : DataFrame :=
  filter (fun c => negb (String.eqb (fst c) "weapon_used_Firearm"))
         (pd_DataFrame (data scenario_form)).

(** The text of the caption (line 226). *)
Definition caption_text : string :=
  "This application uses a Random Forest Classifier trained on sample Indian crime data (Project Version 3).".

(** The form with another report date and time. *)
Definition with_report (w : widgets) (d : date) (t : time) : widgets :=
  {| latitude := latitude w;
     longitude := longitude w;
     report_datetime := d;
     report_time := t;
     victim_age := victim_age w;
     police_deployed := police_deployed w;
     victim_gender := victim_gender w;
     weapon_used := weapon_used w;
     case_closed := case_closed w |}.

(** The day after [d] when that is a day of the same month. *)
Definition next_day_of_month (d : date) : date :=
  {| year := year d; month := month d; day := day d + 1 |}.

(** The weapons that have a dummy column (lines 144-149). *)
Definition weapon_columns_values : list string :=
  [ "Firearm"; "Explosives"; "Knife"; "Other"; "Poison"; "Unknown" ].

(** ** Loading the model and the whole script (lines 21-36, 39-125) *)

(** The loaded object, as far as the script uses it: its
    [predict_proba]. *)
Definition model : Type := DataFrame -> result ndarray2.

(** What [joblib.load(path)] does: it returns the object, raises
    [FileNotFoundError], raises another exception of the class [Exception],
    or raises outside [Exception]. *)
Inductive load_outcome : Type :=
| loaded (m : model)
| file_not_found
| load_failed (msg : string)
| load_escaped (name : string).

(** What the script shows outside the prediction handler. *)
Inductive notice : Type :=
| model_loaded                          (* line 26 *)
| model_not_found (path : string)       (* line 29 *)
| model_load_error (msg : string)       (* line 32 *)
| title_block                           (* lines 39-48 *)
| section_header (text : string).       (* lines 55 and 87 *)

(** Lines 22-33, the body [st.cache_resource] runs on the first call for a
    path: the notices it shows, and the model it returns unless it stops the
    run or the raise is one neither [except] clause catches. *)
Definition load_model (disk : load_outcome) (path : string)
  : list notice * flow model :=
  match disk with
  | loaded m => ([model_loaded], Continue m)
  | file_not_found => ([model_not_found path], Stopped)
  | load_failed msg => ([model_load_error msg], Stopped)
  | load_escaped name => ([], Uncaught (BaseExceptionOnly name))
  end.

(** One run of the whole script in which [load_model] is executed: the
    notices shown above the handler, and the run of the handler (button
    pressed) or of the footer alone (button not pressed).  The widgets are
    represented by their values [w]. *)
Definition app (disk : load_outcome) (path : string)
    (clicked : bool) (w : widgets) (s : world)
  : list notice * (flow unit * world) :=
  match load_model disk path with
  | (shown, Stopped) => (shown, (Stopped, s))
  | (shown, Uncaught e) => (shown, (Uncaught e, s))
  | (shown, Continue m) =>
      (shown ++ [ title_block;
                  section_header "Time and Location Context";
                  section_header "Victim and Incident Details" ],
       if clicked then run m w s else footer s)
  end.

(** ** Probabilities with five decimals *)

(** [f k && f (k+1) && ...] over [n] consecutive integers. *)
Fixpoint all_from (n : nat) (k : Z) (f : Z -> bool) : bool :=
  match n with
  | O => true
  | S n' => if f k then all_from n' (k + 1) f else false
  end.

(** The probability [k / 100000]. *)
Definition five_decimals (k : Z) : float := (float_of_Z k / 100000)%float.

Definition tier_eqb (a b : tier) : bool :=
  Nat.eqb (tier_rank a) (tier_rank b).

Definition tier_from (k : Z) : tier :=
  if 69996 <=? k then HIGH else if 39995 <=? k then MODERATE else LOW.

(** Whether the score of [k / 100000] lies in [0, 100] and has the tier
    [tier_from k]. *)
Definition score_in_range_with_tier (k : Z) : bool :=
  match prediction_score [(0%float, five_decimals k)] with
  | Ok x =>
      (0 <=? x)%float && (x <=? 100)%float
      && tier_eqb (risk_level x) (tier_from k)
  | Raise _ => false
  end.


(** Whether the score of [k / 100000] is a number of hundredths [h / 100]
    with [h] within half a unit of the percentage [k / 1000] counted in
    hundredths, [k / 10]. *)
Definition score_has_two_decimals (k : Z) : bool :=
  match prediction_score [(0%float, five_decimals k)] with
  | Ok x =>
      (PrimFloat.Leibniz.eqb x (float_of_Z (k / 10) / 100)%float
       && (k mod 10 <=? 5))
      || (PrimFloat.Leibniz.eqb x (float_of_Z (k / 10 + 1) / 100)%float
          && (5 <=? k mod 10))
  | Raise _ => false
  end.

(** * Properties *)

(** ** The encoder *)

(** The default form is one the widgets can deliver; the form with the weapon
    Sword is not. *)
Lemma scenario_form_valid : valid_widgets scenario_form.
Proof.
  unfold valid_widgets. simpl.
  repeat split; try reflexivity; try lia; try discriminate; tauto.
Qed.

Lemma sword_form_not_valid : ~ valid_widgets sword_form.
Proof.
  unfold valid_widgets. simpl. intuition discriminate.
Qed.

Lemma encode_feature_frame (w : widgets) : encode w = Ok (feature_frame w).
Proof. reflexivity. Qed.

Lemma indicator_01 (a b : string) : indicator a b = 0 \/ indicator a b = 1.
Proof. unfold indicator. destruct (String.eqb a b); auto. Qed.

Lemma indicator_1_iff (a b : string) : indicator a b = 1 <-> a = b.
Proof.
  unfold indicator. destruct (String.eqb_spec a b); split;
    intros; congruence || lia.
Qed.

Lemma indicator_0_iff (a b : string) : indicator a b = 0 <-> a <> b.
Proof.
  unfold indicator. destruct (String.eqb_spec a b); split;
    intros; congruence || lia.
Qed.

(** Two dummies of one value against different constants are not both 1. *)
Ltac first_match x :=
  unfold indicator;
  repeat match goal with
  | |- context [String.eqb x ?c] =>
      let E := fresh "E" in
      destruct (String.eqb_spec x c) as [E|E];
      [try rewrite E; simpl; try lia; try reflexivity|]
  end; simpl; try lia; try reflexivity.

(** C2. For every form (so for every valid one) the encoder returns a frame
    whose labels are the 16 expected columns in their order; its row has 16
    slots: the seven raw values unscaled, then the two gender dummies, the six
    weapon dummies and the case dummy, each 0 or 1, with at most one gender
    dummy and at most one weapon dummy equal to 1. *)
Theorem encode_vector_shape (w : widgets) :
  exists (df : DataFrame) (gM gX wE wF wK wO wP wU cY : Z),
    encode w = Ok df /\
    columns df = expected_columns /\
    List.length (row0 df) = 16%nat /\
    row0 df =
      [ Some (PyInt (victim_age w)); Some (PyInt (police_deployed w));
        Some (PyFloat (latitude w)); Some (PyFloat (longitude w));
        Some (PyInt (report_hour w)); Some (PyInt (report_day_of_week w));
        Some (PyInt (report_month w)) ]
      ++ ints [gM; gX; wE; wF; wK; wO; wP; wU; cY] /\
    Forall (fun z => z = 0 \/ z = 1) [gM; gX; wE; wF; wK; wO; wP; wU; cY] /\
    gM + gX <= 1 /\
    wE + wF + wK + wO + wP + wU <= 1.
Proof.
  exists (feature_frame w),
    (indicator (victim_gender w) "Male"), (indicator (victim_gender w) "X"),
    (indicator (weapon_used w) "Explosives"),
    (indicator (weapon_used w) "Firearm"),
    (indicator (weapon_used w) "Knife"),
    (indicator (weapon_used w) "Other"),
    (indicator (weapon_used w) "Poison"),
    (indicator (weapon_used w) "Unknown"),
    (indicator (case_closed w) "Yes").
  repeat split; try reflexivity.
  - repeat (constructor; [apply indicator_01|]). constructor.
  - first_match (victim_gender w).
  - first_match (weapon_used w).
Qed.

(** ** Binary64 comparisons *)

Ltac split_compare :=
  repeat match goal with
  | |- context [Z.compare ?a ?b] => destruct (Z.compare_spec a b); subst
  | |- context [Pos.compare_cont Eq ?a ?b] =>
      change (Pos.compare_cont Eq a b) with (Pos.compare a b);
      destruct (Pos.compare_spec a b); subst
  end; simpl; try congruence; try lia.

Lemma SFleb_trans (x y z : spec_float) :
  SFleb x y = true -> SFleb y z = true -> SFleb x z = true.
Proof.
  unfold SFleb, SFcompare.
  destruct x as [sx|sx| |sx mx ex], y as [sy|sy| |sy my ey],
           z as [sz|sz| |sz mz ez];
    try destruct sx; try destruct sy; try destruct sz;
    simpl; try congruence; split_compare.
Qed.

Lemma SFltb_negb_SFleb (x y : spec_float) :
  SFcompare x y <> None -> SFltb x y = negb (SFleb y x).
Proof.
  unfold SFltb, SFleb, SFcompare.
  destruct x as [sx|sx| |sx mx ex], y as [sy|sy| |sy my ey];
    try destruct sx; try destruct sy; simpl; try congruence; split_compare.
Qed.

Lemma SFcompare_None (x y : spec_float) :
  SFcompare x y = None -> x = S754_nan \/ y = S754_nan.
Proof.
  destruct x as [sx|sx| |sx mx ex], y as [sy|sy| |sy my ey];
    simpl; auto; discriminate.
Qed.

Lemma SFleb_not_nan_r (x y : spec_float) : SFleb x y = true -> y <> S754_nan.
Proof. intros H ->. destruct x; discriminate. Qed.

Lemma leb_trans (x y z : float) :
  (x <=? y)%float = true -> (y <=? z)%float = true -> (x <=? z)%float = true.
Proof. rewrite !leb_spec. apply SFleb_trans. Qed.

(** Below a number that compares with something, [<] is the negation of
    [>=] against a constant that is a number. *)
Lemma ltb_negb_leb (a x c : float) :
  (a <=? x)%float = true -> (c <=? c)%float = true ->
  (x <? c)%float = negb (c <=? x)%float.
Proof.
  rewrite ltb_spec, !leb_spec. intros Hx Hc.
  apply SFltb_negb_SFleb. intros HN.
  destruct (SFcompare_None _ _ HN) as [E|E].
  - exact (SFleb_not_nan_r _ _ Hx E).
  - exact (SFleb_not_nan_r _ _ Hc E).
Qed.

(** ** The risk tier *)

(** C1. For every percentage [p] with [0 <= p <= 100] the tier is HIGH
    exactly when [p >= 70], MODERATE exactly when [40 <= p < 70] and LOW
    exactly when [p < 40], so exactly one tier applies; 40.00 is MODERATE and
    70.00 is HIGH; and a larger percentage never has a lower tier. *)
Theorem risk_level_buckets (p : float) :
  (0 <=? p)%float = true -> (p <=? 100)%float = true ->
  (risk_level p = HIGH <-> (70 <=? p)%float = true) /\
  (risk_level p = MODERATE <->
     (40 <=? p)%float = true /\ (p <? 70)%float = true) /\
  (risk_level p = LOW <-> (p <? 40)%float = true) /\
  risk_level 40%float = MODERATE /\
  risk_level 70%float = HIGH /\
  (forall q : float,
      (p <=? q)%float = true -> tier_le (risk_level p) (risk_level q)).
Proof.
  intros H0 _.
  assert (L70 : (p <? 70)%float = negb (70 <=? p)%float)
    by (apply (ltb_negb_leb 0%float); [exact H0 | reflexivity]).
  assert (L40 : (p <? 40)%float = negb (40 <=? p)%float)
    by (apply (ltb_negb_leb 0%float); [exact H0 | reflexivity]).
  assert (H4070 : (40 <=? 70)%float = true) by reflexivity.
  rewrite L70, L40. unfold risk_level.
  repeat split; try reflexivity.
  - destruct (70 <=? p)%float; [reflexivity|].
    destruct (40 <=? p)%float; discriminate.
  - intros ->. reflexivity.
  - destruct (70 <=? p)%float; [discriminate|].
    destruct (40 <=? p)%float; [reflexivity | discriminate].
  - destruct (70 <=? p)%float; [discriminate | reflexivity].
  - intros [-> E]. apply negb_true_iff in E. rewrite E. reflexivity.
  - destruct (70 <=? p)%float; [discriminate|].
    destruct (40 <=? p)%float; [discriminate | reflexivity].
  - intros E. apply negb_true_iff in E. rewrite E.
    destruct (70 <=? p)%float eqn:E70; [|reflexivity].
    rewrite (leb_trans 40%float 70%float p H4070 E70) in E. discriminate.
  - intros q Hpq. unfold tier_le.
    destruct (70 <=? p)%float eqn:P70.
    + rewrite (leb_trans 70%float p q P70 Hpq). simpl. lia.
    + destruct (40 <=? p)%float eqn:P40.
      * rewrite (leb_trans 40%float p q P40 Hpq).
        destruct (70 <=? q)%float; simpl; lia.
      * simpl. lia.
Qed.

Lemma risk_level_buckets_witness :
  (risk_level 55.5%float = HIGH <-> (70 <=? 55.5)%float = true) /\
  (risk_level 55.5%float = MODERATE <->
     (40 <=? 55.5)%float = true /\ (55.5 <? 70)%float = true) /\
  (risk_level 55.5%float = LOW <-> (55.5 <? 40)%float = true) /\
  risk_level 40%float = MODERATE /\
  risk_level 70%float = HIGH /\
  (forall q : float,
      (55.5 <=? q)%float = true ->
      tier_le (risk_level 55.5%float) (risk_level q)).
Proof.
  apply (risk_level_buckets 55.5%float); reflexivity.
Defined.

(** ** The dummies *)

(** C4. In the encoded frame the Male dummy is 1 exactly when the gender is
    Male and the X dummy is 1 exactly when the gender is X (each is 0
    otherwise); for Female and for Other both dummies are 0. *)
Theorem gender_dummies (w : widgets) :
  exists df,
    encode w = Ok df /\
    (cell df "victim_gender_M" = Some (PyInt 1) <-> victim_gender w = "Male") /\
    (cell df "victim_gender_M" = Some (PyInt 0) <-> victim_gender w <> "Male") /\
    (cell df "victim_gender_X" = Some (PyInt 1) <-> victim_gender w = "X") /\
    (cell df "victim_gender_X" = Some (PyInt 0) <-> victim_gender w <> "X") /\
    (exists dfF, encode (with_gender w "Female") = Ok dfF /\
                 cells dfF gender_columns = ints [0; 0]) /\
    (exists dfO, encode (with_gender w "Other") = Ok dfO /\
                 cells dfO gender_columns = ints [0; 0]) /\
    (exists dfM, encode (with_gender w "Male") = Ok dfM /\
                 cells dfM gender_columns = ints [1; 0]) /\
    (exists dfX, encode (with_gender w "X") = Ok dfX /\
                 cells dfX gender_columns = ints [0; 1]).
Proof.
  exists (feature_frame w). split; [reflexivity|].
  change (cell (feature_frame w) "victim_gender_M")
    with (Some (PyInt (indicator (victim_gender w) "Male"))).
  change (cell (feature_frame w) "victim_gender_X")
    with (Some (PyInt (indicator (victim_gender w) "X"))).
  repeat split;
    try (intros H; injection H as H; revert H; apply indicator_1_iff);
    try (intros H; injection H as H; revert H; apply indicator_0_iff);
    try (intros H; do 2 f_equal; revert H; apply indicator_1_iff);
    try (intros H; do 2 f_equal; revert H; apply indicator_0_iff).
  - exists (feature_frame (with_gender w "Female")). split; reflexivity.
  - exists (feature_frame (with_gender w "Other")). split; reflexivity.
  - exists (feature_frame (with_gender w "Male")). split; reflexivity.
  - exists (feature_frame (with_gender w "X")). split; reflexivity.
Qed.

(** C5. Whatever the other fields are, a weapon among Explosives, Firearm,
    Knife, Other, Poison and Unknown sets its own dummy to 1 and the five
    others to 0, and Blunt Object and None set all six dummies to 0. *)
Theorem weapon_dummies (w : widgets) :
  (exists df, encode (with_weapon w "Explosives") = Ok df /\
              cells df weapon_columns = ints [1; 0; 0; 0; 0; 0]) /\
  (exists df, encode (with_weapon w "Firearm") = Ok df /\
              cells df weapon_columns = ints [0; 1; 0; 0; 0; 0]) /\
  (exists df, encode (with_weapon w "Knife") = Ok df /\
              cells df weapon_columns = ints [0; 0; 1; 0; 0; 0]) /\
  (exists df, encode (with_weapon w "Other") = Ok df /\
              cells df weapon_columns = ints [0; 0; 0; 1; 0; 0]) /\
  (exists df, encode (with_weapon w "Poison") = Ok df /\
              cells df weapon_columns = ints [0; 0; 0; 0; 1; 0]) /\
  (exists df, encode (with_weapon w "Unknown") = Ok df /\
              cells df weapon_columns = ints [0; 0; 0; 0; 0; 1]) /\
  (exists df, encode (with_weapon w "Blunt Object") = Ok df /\
              cells df weapon_columns = ints [0; 0; 0; 0; 0; 0]) /\
  (exists df, encode (with_weapon w "None") = Ok df /\
              cells df weapon_columns = ints [0; 0; 0; 0; 0; 0]).
Proof.
  repeat split;
    match goal with
    | |- exists df, encode ?x = _ /\ _ =>
        exists (feature_frame x); split; reflexivity
    end.
Qed.

(** C7. A form with age 35, 15 police deployed, latitude 28.70, longitude
    77.10, hour 10, day of week 2, month 6, gender Female, weapon Firearm and
    case not closed is encoded as
    [35, 15, 28.70, 77.10, 10, 2, 6, 0, 0, 0, 1, 0, 0, 0, 0, 0] under the
    expected labels; the first four slots are the inputs themselves. *)
Theorem scenario_vector (w : widgets) :
  victim_age w = 35 ->
  police_deployed w = 15 ->
  latitude w = 28.70%float ->
  longitude w = 77.10%float ->
  report_hour w = 10 ->
  report_day_of_week w = 2 ->
  report_month w = 6 ->
  victim_gender w = "Female" ->
  weapon_used w = "Firearm" ->
  case_closed w = "No" ->
  exists df,
    encode w = Ok df /\
    columns df = expected_columns /\
    row0 df =
      [ Some (PyInt 35); Some (PyInt 15);
        Some (PyFloat 28.70%float); Some (PyFloat 77.10%float);
        Some (PyInt 10); Some (PyInt 2); Some (PyInt 6);
        Some (PyInt 0); Some (PyInt 0);
        Some (PyInt 0); Some (PyInt 1); Some (PyInt 0);
        Some (PyInt 0); Some (PyInt 0); Some (PyInt 0);
        Some (PyInt 0) ] /\
    cell df "victim_age" = Some (PyInt (victim_age w)) /\
    cell df "police_deployed" = Some (PyInt (police_deployed w)) /\
    cell df "latitude" = Some (PyFloat (latitude w)) /\
    cell df "longitude" = Some (PyFloat (longitude w)).
Proof.
  intros Ha Hp Hlat Hlon Hh Hd Hm Hg Hw Hc.
  exists (feature_frame w). repeat split; try reflexivity.
  unfold row0, feature_frame, dummy. simpl.
  rewrite Ha, Hp, Hlat, Hlon, Hh, Hd, Hm, Hg, Hw, Hc. reflexivity.
Qed.

Lemma scenario_vector_witness :
  exists df,
    encode scenario_form = Ok df /\
    columns df = expected_columns /\
    row0 df =
      [ Some (PyInt 35); Some (PyInt 15);
        Some (PyFloat 28.70%float); Some (PyFloat 77.10%float);
        Some (PyInt 10); Some (PyInt 2); Some (PyInt 6);
        Some (PyInt 0); Some (PyInt 0);
        Some (PyInt 0); Some (PyInt 1); Some (PyInt 0);
        Some (PyInt 0); Some (PyInt 0); Some (PyInt 0);
        Some (PyInt 0) ] /\
    cell df "victim_age" = Some (PyInt (victim_age scenario_form)) /\
    cell df "police_deployed" = Some (PyInt (police_deployed scenario_form)) /\
    cell df "latitude" = Some (PyFloat (latitude scenario_form)) /\
    cell df "longitude" = Some (PyFloat (longitude scenario_form)).
Proof.
  apply (scenario_vector scenario_form); reflexivity.
Defined.

(** ** The column selection never fails *)

(** C10. For every form each of the 16 expected labels is a key of the
    feature dictionary, so no label is missing, the selection of the expected
    columns raises no exception, and the encoding step neither shows the
    feature mismatch error nor stops the run: it hands on the frame and
    leaves the page as it was. *)
Theorem expected_columns_present (w : widgets) :
  (forall c, In c expected_columns -> dict_get c (data w) <> None) /\
  List.length (data w) = 16%nat /\
  missing_labels (pd_DataFrame (data w)) expected_columns = [] /\
  (forall e,
      getitem_columns (pd_DataFrame (data w)) expected_columns <> Raise e) /\
  (exists df,
      encode w = Ok df /\
      forall s, encode_step w s = (Continue df, s) /\
                page (snd (encode_step w s)) = page s).
Proof.
  repeat split; try reflexivity.
  - intros c Hc. simpl in Hc.
    repeat (destruct Hc as [<-|Hc]; [discriminate|]). contradiction.
  - intros e H. discriminate H.
  - exists (feature_frame w). repeat split; reflexivity.
Qed.

(** ** The run of the handler *)

Lemma encode_step_frame (w : widgets) (s : world) :
  encode_step w s = (Continue (feature_frame w), s).
Proof. reflexivity. Qed.

Lemma show3 (s : world) (a b c : element) :
  (show a ;; show b ;; show c) s
  = (Continue tt, {| page := page s ++ [a; b; c]; calls := calls s |}).
Proof.
  unfold bind, show. simpl. rewrite <- !app_assoc. reflexivity.
Qed.

Section Runs.

Variable predict_proba : DataFrame -> result ndarray2.

Lemma predict_step_calls (df : DataFrame) (s : world) :
  calls (snd (predict_step predict_proba df s)) = calls s ++ [df].
Proof.
  unfold predict_step, bind, model_predict_proba.
  destruct (proba <-? predict_proba df; prediction_score proba)
    as [score|e]; [reflexivity|].
  destruct (is_Exception e); reflexivity.
Qed.

Lemma run_calls (w : widgets) (s : world) :
  calls (snd (run predict_proba w s)) = calls s ++ [feature_frame w].
Proof.
  unfold run, on_predict.
  unfold bind at 1 2. rewrite encode_step_frame.
  pose proof (predict_step_calls (feature_frame w) s) as Hc.
  destruct (predict_step predict_proba (feature_frame w) s)
    as [[[]| |e] s']; simpl in *; exact Hc.
Qed.

End Runs.

(** ** Unrecognized weapons *)

Lemma not_in_weapon_options (v : string) :
  ~ In v weapon_used_options ->
  indicator v "Explosives" = 0 /\ indicator v "Firearm" = 0 /\
  indicator v "Knife" = 0 /\ indicator v "Other" = 0 /\
  indicator v "Poison" = 0 /\ indicator v "Unknown" = 0.
Proof.
  intros H. repeat split; apply indicator_0_iff; intros ->; apply H;
    simpl; tauto.
Qed.

(** C3, as the code has it. A weapon outside the options of the select box
    does not make the encoder fail: the encoder returns the 16-column frame
    with all six weapon dummies 0, the very frame it returns for None; the
    encoding step shows no error and does not stop, and the run hands that
    frame to the classifier. *)
Theorem unrecognized_weapon_defaults
    (predict_proba : DataFrame -> result ndarray2) (w : widgets) (s : world) :
  ~ In (weapon_used w) weapon_used_options ->
  exists df,
    encode w = Ok df /\
    columns df = expected_columns /\
    cells df weapon_columns = ints [0; 0; 0; 0; 0; 0] /\
    encode (with_weapon w "None") = Ok df /\
    encode_step w s = (Continue df, s) /\
    calls (snd (run predict_proba w s)) = calls s ++ [df].
Proof.
  intros H. apply not_in_weapon_options in H.
  destruct H as (HE & HF & HK & HO & HP & HU).
  exists (feature_frame w). repeat split; try reflexivity.
  - unfold cells, weapon_columns, feature_frame, dummy. simpl.
    rewrite HE, HF, HK, HO, HP, HU. reflexivity.
  - rewrite encode_feature_frame. f_equal.
    unfold feature_frame, dummy. simpl.
    rewrite HE, HF, HK, HO, HP, HU. reflexivity.
  - apply run_calls.
Qed.

Lemma unrecognized_weapon_defaults_witness :
  exists df,
    encode sword_form = Ok df /\
    columns df = expected_columns /\
    cells df weapon_columns = ints [0; 0; 0; 0; 0; 0] /\
    encode (with_weapon sword_form "None") = Ok df /\
    encode_step sword_form empty_world = (Continue df, empty_world) /\
    calls (snd (run (constant_classifier 0.5 0.5) sword_form empty_world))
    = calls empty_world ++ [df].
Proof.
  apply (unrecognized_weapon_defaults
           (constant_classifier 0.5 0.5) sword_form empty_world).
  simpl. intuition discriminate.
Defined.

(** C3, as the specification words it, fails: for the weapon Sword, which is
    none of the options, the encoder returns a frame (all weapon dummies 0)
    and the run calls the classifier with it. *)
Lemma unrecognized_weapon_is_encoded :
  ~ In (weapon_used sword_form) weapon_used_options /\
  encode sword_form =
    Ok [ ("victim_age", [PyInt 35]); ("police_deployed", [PyInt 15]);
         ("latitude", [PyFloat 28.70%float]);
         ("longitude", [PyFloat 77.10%float]);
         ("report_hour", [PyInt 10]); ("report_day_of_week", [PyInt 2]);
         ("report_month", [PyInt 6]);
         ("victim_gender_M", [PyInt 0]); ("victim_gender_X", [PyInt 0]);
         ("weapon_used_Explosives", [PyInt 0]);
         ("weapon_used_Firearm", [PyInt 0]);
         ("weapon_used_Knife", [PyInt 0]);
         ("weapon_used_Other", [PyInt 0]);
         ("weapon_used_Poison", [PyInt 0]);
         ("weapon_used_Unknown", [PyInt 0]);
         ("case_closed_Yes", [PyInt 0]) ] /\
  (exists df,
      encode sword_form = Ok df /\
      calls (snd (run (constant_classifier 0.5 0.5) sword_form empty_world))
      = [df]) /\
  ~ schema_mismatch (constant_classifier 0.5 0.5) sword_form empty_world.
Proof.
  split; [simpl; intuition discriminate|].
  split; [reflexivity|].
  split; [exists (feature_frame sword_form); split; reflexivity|].
  intros [[e He] _]. discriminate He.
Qed.

(** ** The classifier *)




Lemma score_sweep :
  forallb score_is_hundredths (map Z.of_nat (seq 0 (Z.to_nat 10001))) = true.
Proof. vm_compute. reflexivity. Qed.

Lemma score_of_basis_points (pNeg : float) (k : Z) :
  0 <= k <= 10000 ->
  prediction_score [(pNeg, basis_points k)] = Ok (float_of_Z k / 100)%float.
Proof.
  intros Hk.
  pose proof score_sweep as H. rewrite forallb_forall in H.
  specialize (H k).
  assert (Hin : In k (map Z.of_nat (seq 0 (Z.to_nat 10001)))).
  { apply in_map_iff. exists (Z.to_nat k). split; [lia|].
    apply in_seq. lia. }
  specialize (H Hin). unfold score_is_hundredths in H.
  change (prediction_score [(pNeg, basis_points k)])
    with (prediction_score [(0%float, basis_points k)]).
  destruct (prediction_score [(0%float, basis_points k)]) as [x|e];
    [|discriminate].
  apply FloatAxioms.Leibniz.eqb_spec in H. rewrite H. reflexivity.
Qed.

Lemma all_from_spec (f : Z -> bool) (n : nat) (k : Z) :
  all_from n k f = true ->
  forall j, k <= j < k + Z.of_nat n -> f j = true.
Proof.
  revert k. induction n as [|n IH]; intros k H j Hj.
  - simpl in Hj. lia.
  - simpl in H. destruct (f k) eqn:Ek; [|discriminate].
    destruct (Z.eq_dec j k) as [->|Hn]; [exact Ek|].
    apply (IH (k + 1) H). lia.
Qed.

Lemma two_decimals_sweep :
  all_from (Z.to_nat 100001) 0 score_has_two_decimals = true.
Proof. vm_compute. reflexivity. Qed.

Lemma score_of_five_decimals (pNeg : float) (k : Z) :
  0 <= k <= 100000 ->
  exists h : Z,
    prediction_score [(pNeg, five_decimals k)]
    = Ok (float_of_Z h / 100)%float /\
    -5 <= 10 * h - k <= 5.
Proof.
  intros Hk.
  pose proof (all_from_spec _ _ _ two_decimals_sweep k) as H.
  assert (Hr : 0 <= k < 0 + Z.of_nat (Z.to_nat 100001)) by lia.
  specialize (H Hr). unfold score_has_two_decimals in H.
  change (prediction_score [(pNeg, five_decimals k)])
    with (prediction_score [(0%float, five_decimals k)]).
  destruct (prediction_score [(0%float, five_decimals k)]) as [x|e];
    [|discriminate H].
  assert (Hdm : k = 10 * (k / 10) + k mod 10) by (apply Z.div_mod; lia).
  assert (Hmb : 0 <= k mod 10 < 10) by (apply Z.mod_pos_bound; lia).
  apply orb_true_iff in H. destruct H as [H|H];
    apply andb_true_iff in H; destruct H as [Hx Hm];
    apply FloatAxioms.Leibniz.eqb_spec in Hx; subst x.
  - exists (k / 10). split; [reflexivity|].
    apply Z.leb_le in Hm. lia.
  - exists (k / 10 + 1). split; [reflexivity|].
    apply Z.leb_le in Hm. lia.
Qed.

(** C6. When the classifier answers the frame with the row [(pNeg, pPos)],
    the score is [round(pPos * 100, 2)], whatever [pNeg] is, and the
    prediction step shows the rule, the header and the result card with that
    score and its tier.  The score has two decimals: for every probability
    with five decimals, [k / 100000] with [0 <= k <= 100000], it is a number
    of hundredths [h / 100] at most half a hundredth away from the percentage
    [k / 1000] (0.12345 gives 12.35 or 12.34, never 12.345); for every
    probability with four decimals, [k / 10000], it is the percentage
    [k / 100] itself; a probability with nine decimals, 0.123456789, gives
    12.35.  For [pPos] 0.85 the score is 85.0 and the tier HIGH, for 0.55 it
    is 55.0 and MODERATE, for 0.10 it is 10.0 and LOW. *)
Theorem positive_class_percentage
    (predict_proba : DataFrame -> result ndarray2)
    (df : DataFrame) (s : world) (pNeg pPos : float) :
  predict_proba df = Ok [(pNeg, pPos)] ->
  prediction_score [(pNeg, pPos)] = Ok (round (pPos * 100)%float 2) /\
  predict_step predict_proba df s
  = (Continue tt,
     {| page :=
          page s
          ++ [ rule; subheader "Prediction Result";
               result_card
                 (color (risk_level (round (pPos * 100)%float 2)))
                 (round (pPos * 100)%float 2)
                 (risk_label (risk_level (round (pPos * 100)%float 2))) ];
        calls := calls s ++ [df] |}) /\
  (forall k : Z,
      0 <= k <= 100000 ->
      exists h : Z,
        prediction_score [(pNeg, five_decimals k)]
        = Ok (float_of_Z h / 100)%float /\
        -5 <= 10 * h - k <= 5) /\
  (forall k : Z,
      0 <= k <= 10000 ->
      prediction_score [(pNeg, basis_points k)]
      = Ok (float_of_Z k / 100)%float) /\
  prediction_score [(pNeg, 0.123456789%float)] = Ok 12.35%float /\
  prediction_score [(pNeg, 0.699951%float)] = Ok 70.0%float /\
  (prediction_score [(pNeg, 0.85%float)] = Ok 85.0%float /\
   risk_level 85.0%float = HIGH) /\
  (prediction_score [(pNeg, 0.55%float)] = Ok 55.0%float /\
   risk_level 55.0%float = MODERATE) /\
  (prediction_score [(pNeg, 0.10%float)] = Ok 10.0%float /\
   risk_level 10.0%float = LOW).
Proof.
  intros H. split; [reflexivity|]. split.
  - unfold predict_step. unfold bind at 1. unfold model_predict_proba.
    rewrite H.
    change (proba <-? Ok [(pNeg, pPos)]; prediction_score proba)
      with (Ok (A := float) (round (pPos * 100)%float 2)).
    cbv beta iota zeta.
    apply (show3 {| page := page s; calls := calls s ++ [df] |}).
  - split; [apply score_of_five_decimals|].
    split; [apply score_of_basis_points|].
    repeat split; vm_compute; reflexivity.
Qed.

Lemma positive_class_percentage_witness :
  prediction_score [(0.15%float, 0.85%float)]
  = Ok (round (0.85 * 100)%float 2) /\
  predict_step (constant_classifier 0.15 0.85)
               (feature_frame scenario_form) empty_world
  = (Continue tt,
     {| page :=
          page empty_world
          ++ [ rule; subheader "Prediction Result";
               result_card
                 (color (risk_level (round (0.85 * 100)%float 2)))
                 (round (0.85 * 100)%float 2)
                 (risk_label (risk_level (round (0.85 * 100)%float 2))) ];
        calls := calls empty_world ++ [feature_frame scenario_form] |}) /\
  (forall k : Z,
      0 <= k <= 100000 ->
      exists h : Z,
        prediction_score [(0.15%float, five_decimals k)]
        = Ok (float_of_Z h / 100)%float /\
        -5 <= 10 * h - k <= 5) /\
  (forall k : Z,
      0 <= k <= 10000 ->
      prediction_score [(0.15%float, basis_points k)]
      = Ok (float_of_Z k / 100)%float) /\
  prediction_score [(0.15%float, 0.123456789%float)] = Ok 12.35%float /\
  prediction_score [(0.15%float, 0.699951%float)] = Ok 70.0%float /\
  (prediction_score [(0.15%float, 0.85%float)] = Ok 85.0%float /\
   risk_level 85.0%float = HIGH) /\
  (prediction_score [(0.15%float, 0.55%float)] = Ok 55.0%float /\
   risk_level 55.0%float = MODERATE) /\
  (prediction_score [(0.15%float, 0.10%float)] = Ok 10.0%float /\
   risk_level 10.0%float = LOW).
Proof.
  apply (positive_class_percentage
           (constant_classifier 0.15 0.85)
           (feature_frame scenario_form) empty_world 0.15%float 0.85%float).
  reflexivity.
Defined.

(** * Further properties of the script *)

(** ** The dictionary *)

Lemma dict_get_set_same (k : string) (v : list scalar) (d : dict) :
  dict_get k (dict_set k v d) = Some v.
Proof.
  induction d as [|[k' v'] d IH]; simpl.
  - rewrite String.eqb_refl. reflexivity.
  - destruct (String.eqb k k') eqn:E; simpl; rewrite E; [reflexivity | exact IH].
Qed.

Lemma dict_get_set_other (k k' : string) (v : list scalar) (d : dict) :
  k' <> k -> dict_get k' (dict_set k v d) = dict_get k' d.
Proof.
  intros Hk. induction d as [|[k0 v0] d IH]; simpl.
  - destruct (String.eqb_spec k' k); [contradiction | reflexivity].
  - destruct (String.eqb_spec k k0) as [->|Hn]; simpl.
    + destruct (String.eqb_spec k' k0); [contradiction | reflexivity].
    + destruct (String.eqb k' k0); [reflexivity | exact IH].
Qed.

Lemma dict_set_keys_in (k : string) (v : list scalar) (d : dict) (x : string) :
  In x (map fst (dict_set k v d)) <-> x = k \/ In x (map fst d).
Proof.
  induction d as [|[k0 v0] d IH]; simpl.
  - intuition.
  - destruct (String.eqb_spec k k0) as [->|Hn]; simpl.
    + intuition.
    + rewrite IH. intuition.
Qed.

Lemma dict_set_NoDup (k : string) (v : list scalar) (d : dict) :
  NoDup (map fst d) -> NoDup (map fst (dict_set k v d)).
Proof.
  induction d as [|[k0 v0] d IH]; simpl; intros H.
  - constructor; [intros [] | constructor].
  - inversion H as [|? ? Hnin Hnd]; subst.
    destruct (String.eqb_spec k k0) as [->|Hn]; simpl.
    + constructor; assumption.
    + constructor; [|apply IH; assumption].
      rewrite dict_set_keys_in. intros [E|E]; [congruence | contradiction].
Qed.

Lemma dict_get_app_last (k k0 : string) (v0 : list scalar) (l : dict) :
  dict_get k (l ++ [(k0, v0)])
  = match dict_get k l with
    | Some v => Some v
    | None => if String.eqb k k0 then Some v0 else None
    end.
Proof.
  induction l as [|[k1 v1] l IH]; simpl.
  - reflexivity.
  - destruct (String.eqb k k1); [reflexivity | exact IH].
Qed.

Lemma fold_dict_set_get (items : list (string * list scalar)) (d : dict)
    (k : string) :
  dict_get k (fold_left (fun d kv => dict_set (fst kv) (snd kv) d) items d)
  = match dict_get k (rev items) with
    | Some v => Some v
    | None => dict_get k d
    end.
Proof.
  revert d. induction items as [|[k0 v0] items IH]; intros d; simpl.
  - reflexivity.
  - rewrite IH, dict_get_app_last.
    destruct (dict_get k (rev items)) as [v|]; [reflexivity|].
    destruct (String.eqb_spec k k0) as [->|Hn].
    + apply dict_get_set_same.
    + apply dict_get_set_other. exact Hn.
Qed.

Lemma fold_dict_set_NoDup (items : list (string * list scalar)) (d : dict) :
  NoDup (map fst d) ->
  NoDup (map fst
           (fold_left (fun d kv => dict_set (fst kv) (snd kv) d) items d)).
Proof.
  revert d. induction items as [|[k0 v0] items IH]; intros d H; simpl.
  - exact H.
  - apply IH. apply dict_set_NoDup. exact H.
Qed.

(** X1. A dict display never holds a key twice, and reading a key from it
    gives the value of the last item with that key (nothing when no item has
    the key): later items replace earlier ones. *)
Theorem dict_display_last_wins (items : list (string * list scalar)) :
  NoDup (map fst (dict_display items)) /\
  (forall k, dict_get k (dict_display items) = dict_get k (rev items)).
Proof.
  unfold dict_display. split.
  - apply fold_dict_set_NoDup. constructor.
  - intros k. rewrite fold_dict_set_get.
    destruct (dict_get k (rev items)); reflexivity.
Qed.

(** ** The frame before and after the selection *)

(** X2. For every form the feature dictionary has 16 keys without
    repetition, and the frame the encoder returns is a rearrangement of the
    frame built from the dictionary: the same 16 labelled columns, none
    dropped and none added, but in another order (the case dummy moves from
    the eighth place to the last, Explosives comes before Firearm). *)
Theorem selection_reorders (w : widgets) :
  exists df,
    encode w = Ok df /\
    NoDup (columns (pd_DataFrame (data w))) /\
    List.length (pd_DataFrame (data w)) = 16%nat /\
    Permutation (pd_DataFrame (data w)) df /\
    columns (pd_DataFrame (data w)) <> columns df /\
    nth_error (columns (pd_DataFrame (data w))) 7 = Some "case_closed_Yes" /\
    nth_error (columns df) 15 = Some "case_closed_Yes".
Proof.
  exists (feature_frame w).
  split; [reflexivity|].
  split.
  { change (columns (pd_DataFrame (data w)))
      with [ "victim_age"; "police_deployed"; "latitude"; "longitude";
             "report_hour"; "report_day_of_week"; "report_month";
             "case_closed_Yes"; "victim_gender_M"; "victim_gender_X";
             "weapon_used_Firearm"; "weapon_used_Explosives";
             "weapon_used_Knife"; "weapon_used_Other"; "weapon_used_Poison";
             "weapon_used_Unknown" ].
    repeat (constructor;
            [simpl; intros H;
             repeat (destruct H as [H|H]; [discriminate H|]); exact H|]).
    constructor. }
  split; [reflexivity|].
  split.
  { unfold pd_DataFrame, data, dict_display, feature_frame. simpl.
    do 7 apply perm_skip.
    apply (Permutation_cons_app
             [ ("victim_gender_M", [dummy (victim_gender w) "Male"]);
               ("victim_gender_X", [dummy (victim_gender w) "X"]);
               ("weapon_used_Explosives",
                [dummy (weapon_used w) "Explosives"]);
               ("weapon_used_Firearm", [dummy (weapon_used w) "Firearm"]);
               ("weapon_used_Knife", [dummy (weapon_used w) "Knife"]);
               ("weapon_used_Other", [dummy (weapon_used w) "Other"]);
               ("weapon_used_Poison", [dummy (weapon_used w) "Poison"]);
               ("weapon_used_Unknown", [dummy (weapon_used w) "Unknown"]) ]
             []).
    simpl. do 2 apply perm_skip. apply perm_swap. }
  split; [intros H; discriminate H|].
  split; reflexivity.
Qed.

(** ** The selection of columns on any frame *)

Lemma missing_labels_spec (df : DataFrame) (cols : list string) (x : string) :
  In x (missing_labels df cols) <-> In x cols /\ dict_get x df = None.
Proof.
  unfold missing_labels. rewrite nodup_In, filter_In.
  destruct (dict_get x df); intuition discriminate.
Qed.

Lemma missing_labels_nil (df : DataFrame) (cols : list string) :
  missing_labels df cols = [] <->
  (forall c, In c cols -> dict_get c df <> None).
Proof.
  split.
  - intros E c Hc Hn.
    assert (H : In c (missing_labels df cols))
      by (apply missing_labels_spec; auto).
    rewrite E in H. destruct H.
  - intros H. destruct (missing_labels df cols) as [|m ms] eqn:E;
      [reflexivity|].
    assert (Hm : In m (missing_labels df cols)) by (rewrite E; left; auto).
    apply missing_labels_spec in Hm. destruct Hm as [Hc Hn].
    exfalso. exact (H m Hc Hn).
Qed.

Lemma dict_get_absent (c : string) (d : DataFrame) :
  ~ In c (map fst d) -> dict_get c d = None.
Proof.
  induction d as [|[k v] d IH]; simpl; intros H; [reflexivity|].
  destruct (String.eqb_spec c k) as [->|Hn]; [exfalso; auto|].
  apply IH. intros Hin. apply H. right. exact Hin.
Qed.

(** In a frame without repeated labels a label names at most one column. *)
Lemma columns_labelled_distinct (df : DataFrame) (c : string) :
  NoDup (columns df) ->
  columns_labelled df c
  = match dict_get c df with
    | Some v => [(c, v)]
    | None => []
    end.
Proof.
  unfold columns, columns_labelled.
  induction df as [|[k v0] d IH]; simpl; intros H; [reflexivity|].
  inversion H as [|? ? Hnin Hnd]; subst.
  rewrite (String.eqb_sym k c).
  destruct (String.eqb_spec c k) as [->|Hn].
  - rewrite (IH Hnd), (dict_get_absent k d Hnin). reflexivity.
  - apply IH. exact Hnd.
Qed.

Lemma selected_columns (df : DataFrame) (cols : list string) :
  (forall c, In c cols -> dict_get c df <> None) ->
  let out := flat_map (fun c => match dict_get c df with
                                | Some v => [(c, v)]
                                | None => []
                                end) cols in
  map fst out = cols /\
  (forall c, In c cols -> dict_get c out = dict_get c df).
Proof.
  induction cols as [|c0 cols IH]; simpl; intros H.
  - split; [reflexivity | intros c []].
  - destruct (dict_get c0 df) as [v0|] eqn:E0;
      [|exfalso; apply (H c0); auto].
    destruct IH as [IH1 IH2]; [intros c Hc; apply H; auto|].
    simpl. split; [f_equal; exact IH1|].
    intros c [<-|Hc].
    + rewrite String.eqb_refl. symmetry. exact E0.
    + destruct (String.eqb_spec c c0) as [->|Hn];
        [symmetry; exact E0 | apply IH2; exact Hc].
Qed.

(** X3. The selection [df[cols]] succeeds exactly when every label of
    [cols] is a column of [df].  The frame it returns holds exactly the
    columns of [df] whose label is in [cols]; when [df] has no repeated
    label, it has the labels [cols] in that order and, under each of them,
    the column [df] has under it. *)
Theorem getitem_columns_ok (df : DataFrame) (cols : list string) :
  ((exists out, getitem_columns df cols = Ok out) <->
   (forall c, In c cols -> dict_get c df <> None)) /\
  (forall out,
      getitem_columns df cols = Ok out ->
      (forall col, In col out <-> In col df /\ In (fst col) cols) /\
      (NoDup (columns df) ->
       columns out = cols /\
       (forall c, In c cols -> dict_get c out = dict_get c df))).
Proof.
  unfold getitem_columns. split.
  - rewrite <- missing_labels_nil.
    destruct (missing_labels df cols) as [|m ms]; split.
    + reflexivity.
    + intros _. eexists. reflexivity.
    + intros [out H]. discriminate H.
    + discriminate.
  - intros out H.
    destruct (missing_labels df cols) as [|m ms] eqn:E; [|discriminate H].
    injection H as <-. split.
    + intros col. rewrite in_flat_map. unfold columns_labelled. split.
      * intros (c & Hc & Hin). apply filter_In in Hin.
        destruct Hin as [Hin Heq]. apply String.eqb_eq in Heq.
        subst c. auto.
      * intros [Hin Hc]. exists (fst col). split; [exact Hc|].
        apply filter_In. split; [exact Hin | apply String.eqb_refl].
    + intros Hnd.
      rewrite (flat_map_ext _ _ (fun c => columns_labelled_distinct df c Hnd)).
      apply selected_columns. apply missing_labels_nil. exact E.
Qed.

(** X4. When a label of [cols] is no column of [df], the selection raises
    [KeyError], and the labels the error carries are exactly the labels of
    [cols] that [df] lacks, the given one among them. *)
Theorem getitem_columns_key_error
    (df : DataFrame) (cols : list string) (c : string) :
  In c cols -> dict_get c df = None ->
  exists labels,
    getitem_columns df cols = Raise (KeyError labels) /\
    In c labels /\
    (forall x, In x labels <-> In x cols /\ dict_get x df = None).
Proof.
  intros Hin Hnone.
  pose proof (missing_labels_spec df cols) as Hspec.
  assert (Hc : In c (missing_labels df cols)) by (apply Hspec; auto).
  exists (missing_labels df cols). unfold getitem_columns.
  destruct (missing_labels df cols) as [|m ms] eqn:E; [destruct Hc|].
  split; [reflexivity|]. split; [exact Hc | exact Hspec].
Qed.

Lemma getitem_columns_key_error_witness :
  exists labels,
    getitem_columns frame_without_firearm expected_columns
    = Raise (KeyError labels) /\
    In "weapon_used_Firearm" labels /\
    (forall x, In x labels <->
               In x expected_columns /\ dict_get x frame_without_firearm = None).
Proof.
  apply (getitem_columns_key_error
           frame_without_firearm expected_columns "weapon_used_Firearm").
  - simpl. tauto.
  - reflexivity.
Defined.

(** ** The handler on any frame *)

(** X5. The handler of a form is the handler of the frame built from its
    dictionary.  On a frame that lacks an expected label the handler shows
    the feature mismatch error with the [KeyError] of the labels that are
    missing and stops the run: the classifier is not called and nothing
    else, no result card and no prediction error, reaches the page. *)
Theorem missing_column_stops
    (predict_proba : DataFrame -> result ndarray2)
    (frame : DataFrame) (s : world) (c : string) :
  In c expected_columns -> dict_get c frame = None ->
  (forall w, on_predict predict_proba w
             = on_predict_frame predict_proba (pd_DataFrame (data w))) /\
  In c (missing_labels frame expected_columns) /\
  on_predict_frame predict_proba frame s
  = (Stopped,
     {| page := page s
                ++ [feature_mismatch_error
                      (KeyError (missing_labels frame expected_columns))];
        calls := calls s |}).
Proof.
  intros Hin Hnone.
  split; [reflexivity|].
  assert (Hc : In c (missing_labels frame expected_columns))
    by (apply missing_labels_spec; auto).
  split; [exact Hc|].
  unfold on_predict_frame, select_expected_columns, getitem_columns.
  destruct (missing_labels frame expected_columns) as [|m ms];
    [destruct Hc | reflexivity].
Qed.

Lemma missing_column_stops_witness :
  (forall w, on_predict (constant_classifier 0.15 0.85) w
             = on_predict_frame (constant_classifier 0.15 0.85)
                                (pd_DataFrame (data w))) /\
  In "weapon_used_Firearm"
     (missing_labels frame_without_firearm expected_columns) /\
  on_predict_frame (constant_classifier 0.15 0.85)
                   frame_without_firearm empty_world
  = (Stopped,
     {| page := page empty_world
                ++ [feature_mismatch_error
                      (KeyError (missing_labels frame_without_firearm
                                                expected_columns))];
        calls := calls empty_world |}).
Proof.
  apply (missing_column_stops
           (constant_classifier 0.15 0.85) frame_without_firearm empty_world
           "weapon_used_Firearm").
  - simpl. tauto.
  - reflexivity.
Defined.

(** ** What a run shows *)

(** X6. The prediction step on the array the classifier returned: from a
    non-empty array it takes the positive-class probability of the first row
    alone (further rows change nothing) and shows the rule, the header and
    one card with the score, colour and label of that probability; from an
    empty array it shows the prediction error with [IndexError] and no
    card.  Either way the classifier was called once, with the frame. *)
Theorem first_row_decides
    (predict_proba : DataFrame -> result ndarray2)
    (df : DataFrame) (s : world) :
  (forall pNeg pPos rest,
      predict_proba df = Ok ((pNeg, pPos) :: rest) ->
      predict_step predict_proba df s
      = (Continue tt,
         {| page :=
              page s
              ++ [ rule; subheader "Prediction Result";
                   result_card
                     (color (risk_level (round (pPos * 100)%float 2)))
                     (round (pPos * 100)%float 2)
                     (risk_label (risk_level (round (pPos * 100)%float 2))) ];
            calls := calls s ++ [df] |})) /\
  (predict_proba df = Ok [] ->
   predict_step predict_proba df s
   = (Continue tt,
      {| page := page s ++ [prediction_error IndexError];
         calls := calls s ++ [df] |})).
Proof.
  split.
  - intros pNeg pPos rest H.
    unfold predict_step. unfold bind at 1. unfold model_predict_proba.
    rewrite H.
    change (proba <-? Ok ((pNeg, pPos) :: rest); prediction_score proba)
      with (Ok (A := float) (round (pPos * 100)%float 2)).
    cbv beta iota zeta.
    apply (show3 {| page := page s; calls := calls s ++ [df] |}).
  - intros H.
    unfold predict_step. unfold bind at 1. unfold model_predict_proba.
    rewrite H. reflexivity.
Qed.

Lemma on_predict_frame_step
    (predict_proba : DataFrame -> result ndarray2) (w : widgets) (s : world) :
  on_predict predict_proba w s
  = predict_step predict_proba (feature_frame w) s.
Proof. reflexivity. Qed.

Lemma footer_shows (s : world) :
  footer s
  = (Continue tt,
     {| page := page s ++ [rule; caption caption_text]; calls := calls s |}).
Proof.
  unfold footer, bind, show, caption_text. simpl.
  rewrite <- app_assoc. reflexivity.
Qed.

Lemma score_raise_origin
    (predict_proba : DataFrame -> result ndarray2) (df : DataFrame) (e : exn) :
  (proba <-? predict_proba df; prediction_score proba) = Raise e ->
  predict_proba df = Raise e \/ e = IndexError.
Proof.
  destruct (predict_proba df) as [proba|e']; simpl.
  - destruct proba as [|[a b] rest]; simpl; intros H;
      [injection H as <-; right; reflexivity | discriminate H].
  - intros H. left. injection H as <-. reflexivity.
Qed.

Lemma predict_step_caught
    (predict_proba : DataFrame -> result ndarray2)
    (df : DataFrame) (s : world) :
  (forall e, predict_proba df = Raise e -> is_Exception e = true) ->
  exists shown,
    predict_step predict_proba df s
    = (Continue tt,
       {| page := page s ++ shown; calls := calls s ++ [df] |}) /\
    ((exists score,
         shown = [ rule; subheader "Prediction Result";
                   result_card (color (risk_level score)) score
                               (risk_label (risk_level score)) ])
     \/ (exists e, shown = [prediction_error e])).
Proof.
  intros Hexc.
  unfold predict_step. unfold bind at 1. unfold model_predict_proba.
  destruct (proba <-? predict_proba df; prediction_score proba)
    as [score|e] eqn:E.
  - eexists. split; [|left; exists score; reflexivity].
    cbv beta iota zeta.
    apply (show3 {| page := page s; calls := calls s ++ [df] |}).
  - assert (He : is_Exception e = true).
    { destruct (score_raise_origin _ _ _ E) as [H| ->];
        [exact (Hexc e H) | reflexivity]. }
    rewrite He. eexists. split; [|right; exists e; reflexivity].
    reflexivity.
Qed.

Lemma predict_step_escapes
    (predict_proba : DataFrame -> result ndarray2)
    (df : DataFrame) (s : world) (e : exn) :
  predict_proba df = Raise e -> is_Exception e = false ->
  predict_step predict_proba df s
  = (Uncaught e, {| page := page s; calls := calls s ++ [df] |}).
Proof.
  intros H He.
  unfold predict_step, bind, model_predict_proba. rewrite H. simpl.
  rewrite He. reflexivity.
Qed.

(** X7. A run with the button pressed calls the classifier exactly once,
    with the encoded frame.  Unless the classifier raises outside
    [Exception], the run does not stop early: it shows either the rule, the
    header and one result card or one prediction error, and ends with the
    rule and the caption of the footer.  When the classifier raises outside
    [Exception], the raise leaves the script: nothing is shown, not even the
    footer. *)
Theorem run_outcomes
    (predict_proba : DataFrame -> result ndarray2)
    (w : widgets) (s : world) :
  exists df,
    encode w = Ok df /\
    calls (snd (run predict_proba w s)) = calls s ++ [df] /\
    ((forall e, predict_proba df = Raise e -> is_Exception e = true) ->
     exists shown,
       run predict_proba w s
       = (Continue tt,
          {| page := page s ++ shown ++ [rule; caption caption_text];
             calls := calls s ++ [df] |}) /\
       ((exists score,
            shown = [ rule; subheader "Prediction Result";
                      result_card (color (risk_level score)) score
                                  (risk_label (risk_level score)) ])
        \/ (exists e, shown = [prediction_error e]))) /\
    (forall e,
        predict_proba df = Raise e -> is_Exception e = false ->
        run predict_proba w s
        = (Uncaught e, {| page := page s; calls := calls s ++ [df] |})).
Proof.
  exists (feature_frame w).
  split; [reflexivity|]. split; [apply run_calls|]. split.
  - intros Hexc.
    destruct (predict_step_caught predict_proba (feature_frame w) s Hexc)
      as (shown & Hstep & Hshape).
    exists shown. split; [|exact Hshape].
    unfold run. unfold bind at 1.
    rewrite on_predict_frame_step, Hstep, footer_shows. simpl.
    rewrite <- app_assoc. reflexivity.
  - intros e H He.
    unfold run. unfold bind at 1.
    rewrite on_predict_frame_step.
    rewrite (predict_step_escapes predict_proba (feature_frame w) s e H He).
    reflexivity.
Qed.

(** X8. A session of [n] submissions hands the classifier exactly [n]
    frames, the encodings of the submitted forms in the order of the
    submissions, whatever the classifier answered in between. *)
Theorem session_calls
    (predict_proba : DataFrame -> result ndarray2)
    (ws : list widgets) (s : world) :
  exists dfs,
    Forall2 (fun w df => encode w = Ok df) ws dfs /\
    calls (session predict_proba ws s) = calls s ++ dfs /\
    List.length (calls (session predict_proba ws s))
    = (List.length (calls s) + List.length ws)%nat.
Proof.
  revert s. induction ws as [|w ws IH]; intros s.
  - exists []. simpl. rewrite app_nil_r. repeat split; [constructor | lia].
  - destruct (IH (snd (run predict_proba w s))) as (dfs & HF & HC & HL).
    exists (feature_frame w :: dfs). simpl.
    rewrite run_calls in HC, HL.
    split; [constructor; [reflexivity | exact HF]|].
    split.
    + rewrite HC, <- app_assoc. reflexivity.
    + rewrite HL, length_app. simpl. lia.
Qed.

(** ** What the classifier cannot tell apart *)

Lemma indicator_other (v a : string) : v <> a -> indicator v a = 0.
Proof. apply indicator_0_iff. Qed.

(** X9. Two forms that differ only in a gender that is neither Male nor X
    are encoded alike and make the same run: same frame handed to the
    classifier, same page.  So are two forms that differ only in a weapon
    carrying no dummy.  In particular, Other is treated as Female, and Blunt
    Object as None. *)
Theorem reference_categories_coincide
    (predict_proba : DataFrame -> result ndarray2)
    (w : widgets) (s : world) :
  (forall g1 g2,
      g1 <> "Male" -> g1 <> "X" -> g2 <> "Male" -> g2 <> "X" ->
      encode (with_gender w g1) = encode (with_gender w g2) /\
      run predict_proba (with_gender w g1) s
      = run predict_proba (with_gender w g2) s) /\
  (forall v1 v2,
      ~ In v1 weapon_columns_values -> ~ In v2 weapon_columns_values ->
      encode (with_weapon w v1) = encode (with_weapon w v2) /\
      run predict_proba (with_weapon w v1) s
      = run predict_proba (with_weapon w v2) s) /\
  run predict_proba (with_gender w "Other") s
  = run predict_proba (with_gender w "Female") s /\
  run predict_proba (with_weapon w "Blunt Object") s
  = run predict_proba (with_weapon w "None") s.
Proof.
  assert (Hrun : forall w1 w2,
             feature_frame w1 = feature_frame w2 ->
             encode w1 = encode w2 /\
             run predict_proba w1 s = run predict_proba w2 s).
  { intros w1 w2 H. split.
    - rewrite !encode_feature_frame, H. reflexivity.
    - unfold run, bind.
      rewrite !on_predict_frame_step, H. reflexivity. }
  split; [|split; [|split]].
  - intros g1 g2 H1 H1' H2 H2'. apply Hrun.
    unfold feature_frame, dummy. simpl.
    rewrite !(indicator_other g1), !(indicator_other g2) by assumption.
    reflexivity.
  - intros v1 v2 H1 H2. apply Hrun.
    unfold feature_frame, dummy. simpl.
    rewrite !(indicator_other v1), !(indicator_other v2)
      by (intros ->;
          first [ solve [apply H1; simpl; intuition reflexivity]
                | solve [apply H2; simpl; intuition reflexivity] ]).
    reflexivity.
  - apply Hrun. reflexivity.
  - apply Hrun. reflexivity.
Qed.

(** X10. The report date and time reach the frame through the hour, the day
    of the week and the month alone: a form whose report has the same three
    values (another year, another day of the month, other minutes and
    seconds) is encoded alike and makes the same run. *)
Theorem report_through_three_fields
    (predict_proba : DataFrame -> result ndarray2)
    (w : widgets) (d : date) (t : time) (s : world) :
  hour t = report_hour w ->
  weekday d = report_day_of_week w ->
  month d = report_month w ->
  encode (with_report w d t) = encode w /\
  run predict_proba (with_report w d t) s = run predict_proba w s.
Proof.
  intros Hh Hd Hm.
  assert (H : feature_frame (with_report w d t) = feature_frame w).
  { unfold feature_frame, report_hour, report_day_of_week, report_month
      in *. simpl. rewrite Hh, Hd, Hm. reflexivity. }
  split.
  - rewrite !encode_feature_frame, H. reflexivity.
  - unfold run, bind. rewrite !on_predict_frame_step, H. reflexivity.
Qed.

Lemma report_through_three_fields_witness :
  encode (with_report scenario_form (mkDate 2026 6 3) (mkTime 10 59 59))
  = encode scenario_form /\
  run (constant_classifier 0.15 0.85)
      (with_report scenario_form (mkDate 2026 6 3) (mkTime 10 59 59))
      empty_world
  = run (constant_classifier 0.15 0.85) scenario_form empty_world.
Proof.
  apply (report_through_three_fields
           (constant_classifier 0.15 0.85) scenario_form
           (mkDate 2026 6 3) (mkTime 10 59 59) empty_world);
    reflexivity.
Defined.

(** X11. For every form the day-of-week slot of the frame is an integer
    from 0 to 6, and a report dated one day later in the same month has the
    next day of the week, 0 following 6. *)
Theorem day_of_week_slot (w : widgets) :
  exists df d,
    encode w = Ok df /\
    cell df "report_day_of_week" = Some (PyInt d) /\
    0 <= d <= 6 /\
    report_day_of_week
      (with_report w (next_day_of_month (report_datetime w)) (report_time w))
    = (d + 1) mod 7.
Proof.
  exists (feature_frame w), (report_day_of_week w).
  split; [reflexivity|]. split; [reflexivity|].
  unfold report_day_of_week, weekday. split.
  - pose proof (Z.mod_pos_bound (toordinal (report_datetime w) + 6) 7). lia.
  - simpl. unfold toordinal, next_day_of_month. simpl.
    rewrite Z.add_mod_idemp_l by lia. f_equal. lia.
Qed.

(** ** The tier of any score *)

Lemma SFeqb_refl (x : spec_float) : x <> S754_nan -> SFeqb x x = true.
Proof.
  unfold SFeqb, SFcompare.
  destruct x as [sx|sx| |sx mx ex]; try destruct sx; try congruence;
    intros _; rewrite ?Z.compare_refl, ?Pos.compare_cont_refl; reflexivity.
Qed.

Lemma SFleb_false (c p : spec_float) :
  c <> S754_nan ->
  (SFleb c p = false <-> SFltb p c = true \/ SFeqb p p = false).
Proof.
  intros Hc.
  destruct (SFcompare p c) as [o|] eqn:E.
  - assert (Hp : p <> S754_nan) by (intros ->; discriminate E).
    rewrite SFltb_negb_SFleb by congruence.
    rewrite (SFeqb_refl p Hp), negb_true_iff. intuition discriminate.
  - destruct (SFcompare_None _ _ E) as [-> | ->]; [|congruence].
    split; [intros _; right; reflexivity|].
    intros _. destruct c; reflexivity.
Qed.

(** X12. The tier of an arbitrary binary64 score, in range or not: HIGH
    exactly from 70 on, MODERATE exactly from 40 up to but excluding 70, and
    LOW exactly below 40 or when the score is not a number.  So a NaN score
    and minus infinity are shown as LOW, plus infinity as HIGH. *)
Theorem risk_level_any_score (p : float) :
  (risk_level p = HIGH <-> (70 <=? p)%float = true) /\
  (risk_level p = MODERATE <->
     (40 <=? p)%float = true /\ (p <? 70)%float = true) /\
  (risk_level p = LOW <->
     (p <? 40)%float = true \/ (p =? p)%float = false) /\
  risk_level nan = LOW /\
  risk_level neg_infinity = LOW /\
  risk_level infinity = HIGH.
Proof.
  assert (Hlow : (40 <=? p)%float = false
                 <-> (p <? 40)%float = true \/ (p =? p)%float = false).
  { rewrite leb_spec, ltb_spec, eqb_spec. apply SFleb_false.
    vm_compute. discriminate. }
  assert (H4070 : (40 <=? 70)%float = true) by reflexivity.
  unfold risk_level.
  split; [|split; [|split; [|repeat split; reflexivity]]].
  - destruct (70 <=? p)%float; [tauto|].
    destruct (40 <=? p)%float; split; discriminate.
  - destruct (40 <=? p)%float eqn:E40.
    + rewrite (ltb_negb_leb 40%float p 70%float E40 eq_refl).
      destruct (70 <=? p)%float; simpl; split;
        try discriminate; try tauto.
      intros [_ H]. discriminate H.
    + destruct (70 <=? p)%float eqn:E70.
      * rewrite (leb_trans 40%float 70%float p H4070 E70) in E40.
        discriminate E40.
      * split; [discriminate | intros [H _]; discriminate H].
  - rewrite <- Hlow.
    destruct (70 <=? p)%float eqn:E70.
    + rewrite (leb_trans 40%float 70%float p H4070 E70).
      split; discriminate.
    + destruct (40 <=? p)%float; split; try discriminate; reflexivity.
Qed.

(** ** From the probability to the tier *)

Lemma five_decimals_sweep :
  all_from (Z.to_nat 100001) 0 score_in_range_with_tier = true.
Proof. vm_compute. reflexivity. Qed.

Lemma tier_eqb_eq (a b : tier) : tier_eqb a b = true -> a = b.
Proof. destruct a, b; simpl; intros H; reflexivity || discriminate H. Qed.

(** X13. For every probability with five decimals, [k / 100000] with
    [0 <= k <= 100000], the score lies between 0 and 100, and its tier is
    HIGH exactly from 0.69996 on, MODERATE exactly from 0.39995 to 0.69995,
    and LOW exactly up to 0.39994: the tier is decided on the rounded
    score, so probabilities just below 0.70 and 0.40 already fall in the
    higher tier. *)
Theorem five_decimal_thresholds (pNeg : float) (k : Z) :
  0 <= k <= 100000 ->
  exists score,
    prediction_score [(pNeg, five_decimals k)] = Ok score /\
    (0 <=? score)%float = true /\
    (score <=? 100)%float = true /\
    (risk_level score = HIGH <-> 69996 <= k) /\
    (risk_level score = MODERATE <-> 39995 <= k <= 69995) /\
    (risk_level score = LOW <-> k <= 39994).
Proof.
  intros Hk.
  pose proof (all_from_spec _ _ _ five_decimals_sweep k) as H.
  assert (Hr : 0 <= k < 0 + Z.of_nat (Z.to_nat 100001)) by lia.
  specialize (H Hr). unfold score_in_range_with_tier in H.
  change (prediction_score [(pNeg, five_decimals k)])
    with (prediction_score [(0%float, five_decimals k)]).
  destruct (prediction_score [(0%float, five_decimals k)]) as [x|e];
    [|discriminate H].
  apply andb_true_iff in H. destruct H as [H Ht].
  apply andb_true_iff in H. destruct H as [H0 H100].
  apply tier_eqb_eq in Ht.
  exists x. split; [reflexivity|]. split; [exact H0|]. split; [exact H100|].
  rewrite Ht. unfold tier_from.
  destruct (Z.leb_spec 69996 k); [|destruct (Z.leb_spec 39995 k)];
    repeat split; intros; try discriminate; try reflexivity; lia.
Qed.

Lemma five_decimal_thresholds_witness :
  exists score,
    prediction_score [(0.30005%float, five_decimals 69995)] = Ok score /\
    (0 <=? score)%float = true /\
    (score <=? 100)%float = true /\
    (risk_level score = HIGH <-> 69996 <= 69995) /\
    (risk_level score = MODERATE <-> 39995 <= 69995 <= 69995) /\
    (risk_level score = LOW <-> 69995 <= 39994).
Proof.
  apply (five_decimal_thresholds 0.30005%float 69995). lia.
Defined.

(** ** The whole script *)

(** X14. When [joblib.load] does not return a model, the script ends
    there, button pressed or not and whatever the form holds: the world is
    left as it was (no handler, no call of a classifier, no footer) and
    neither the success notice nor the title is shown.  For
    [FileNotFoundError] it shows one error naming the path and stops; for
    another exception of the class [Exception] it shows one error carrying
    it and stops; a raise outside [Exception] is caught by neither clause
    and leaves the script with nothing shown. *)
Theorem load_failure_stops
    (disk : load_outcome) (path : string)
    (clicked : bool) (w : widgets) (s : world) :
  (forall m, disk <> loaded m) ->
  exists shown outcome,
    app disk path clicked w s = (shown, (outcome, s)) /\
    outcome <> Continue tt /\
    ~ In model_loaded shown /\ ~ In title_block shown /\
    (disk = file_not_found ->
     shown = [model_not_found path] /\ outcome = Stopped) /\
    (forall msg, disk = load_failed msg ->
                 shown = [model_load_error msg] /\ outcome = Stopped) /\
    (forall name, disk = load_escaped name ->
                  shown = [] /\ outcome = Uncaught (BaseExceptionOnly name)).
Proof.
  intros H. destruct disk as [m| |msg|name].
  - exfalso. apply (H m). reflexivity.
  - exists [model_not_found path], Stopped.
    split; [reflexivity|]. split; [discriminate|].
    split; [simpl; intuition discriminate|].
    split; [simpl; intuition discriminate|].
    split; [intros _; split; reflexivity|].
    split; intros x E; discriminate E.
  - exists [model_load_error msg], Stopped.
    split; [reflexivity|]. split; [discriminate|].
    split; [simpl; intuition discriminate|].
    split; [simpl; intuition discriminate|].
    split; [intros E; discriminate E|].
    split; intros x E; [injection E as <-; split; reflexivity|discriminate E].
  - exists [], (Uncaught (BaseExceptionOnly name)).
    split; [reflexivity|]. split; [discriminate|].
    split; [simpl; tauto|]. split; [simpl; tauto|].
    split; [intros E; discriminate E|].
    split; intros x E; [discriminate E|injection E as <-; split; reflexivity].
Qed.

Lemma load_failure_stops_witness :
  exists shown outcome,
    app file_not_found "models/crime_predictor_model.joblib"
        true scenario_form empty_world
    = (shown, (outcome, empty_world)) /\
    outcome <> Continue tt /\
    ~ In model_loaded shown /\ ~ In title_block shown /\
    (file_not_found = file_not_found ->
     shown = [model_not_found "models/crime_predictor_model.joblib"] /\
     outcome = Stopped) /\
    (forall msg, file_not_found = load_failed msg ->
                 shown = [model_load_error msg] /\ outcome = Stopped) /\
    (forall name, file_not_found = load_escaped name ->
                  shown = [] /\ outcome = Uncaught (BaseExceptionOnly name)).
Proof.
  apply (load_failure_stops
           file_not_found "models/crime_predictor_model.joblib"
           true scenario_form empty_world).
  intros m H. discriminate H.
Defined.

(** X15. In a run of the whole script the classifier is called only when
    the model was loaded and the button was pressed, and then once, with the
    encoded frame of the form; a result card can appear only then.  With the
    model loaded the run shows the success notice, the title and the two
    section headers; with the button pressed it goes on as the handler's run
    with that model, and with the button not pressed the footer is all the
    page gains. *)
Theorem classifier_called_when_pressed
    (disk : load_outcome) (path : string)
    (clicked : bool) (w : widgets) (s : world) :
  exists df,
    encode w = Ok df /\
    calls (snd (snd (app disk path clicked w s)))
    = calls s ++ match disk with
                 | loaded _ => if clicked then [df] else []
                 | _ => []
                 end /\
    (clicked = false \/ (forall m, disk <> loaded m) ->
     result_cards (page (snd (snd (app disk path clicked w s))))
     = result_cards (page s)) /\
    (forall m,
        disk = loaded m ->
        fst (app disk path clicked w s)
        = [ model_loaded; title_block;
            section_header "Time and Location Context";
            section_header "Victim and Incident Details" ] /\
        (clicked = true -> snd (app disk path clicked w s) = run m w s) /\
        (clicked = false ->
         snd (app disk path clicked w s)
         = (Continue tt,
            {| page := page s ++ [rule; caption caption_text];
               calls := calls s |}))).
Proof.
  exists (feature_frame w). split; [reflexivity|].
  destruct disk as [m| |msg|name].
  - destruct clicked.
    + unfold app, load_model. cbv iota beta. unfold snd at 2.
      split; [apply run_calls|]. split.
      * intros [E|E]; [discriminate E | exfalso; apply (E m); reflexivity].
      * intros m' E. injection E as <-.
        split; [reflexivity|]. split; [reflexivity|].
        intros E. discriminate E.
    + unfold app, load_model. rewrite footer_shows. simpl.
      split; [symmetry; apply app_nil_r|]. split.
      * intros _. unfold result_cards. rewrite filter_app. simpl.
        apply app_nil_r.
      * intros m' _. split; [reflexivity|]. split; [intros E; discriminate E|].
        reflexivity.
  - unfold app. simpl.
    split; [symmetry; apply app_nil_r|]. split; [reflexivity|].
    intros m' E. discriminate E.
  - unfold app. simpl.
    split; [symmetry; apply app_nil_r|]. split; [reflexivity|].
    intros m' E. discriminate E.
  - unfold app. simpl.
    split; [symmetry; apply app_nil_r|]. split; [reflexivity|].
    intros m' E. discriminate E.
Qed.

(** ** The case dummy *)

(** X16. In the encoded frame the case dummy is 1 exactly when the case
    status is Yes and 0 for every other status, and it is the last of the 16
    slots although the dictionary lists it eighth. *)
Theorem case_closed_dummy (w : widgets) :
  exists df,
    encode w = Ok df /\
    (cell df "case_closed_Yes" = Some (PyInt 1) <-> case_closed w = "Yes") /\
    (cell df "case_closed_Yes" = Some (PyInt 0) <-> case_closed w <> "Yes") /\
    nth_error (row0 df) 15 = Some (cell df "case_closed_Yes") /\
    nth_error (row0 (pd_DataFrame (data w))) 7
    = Some (cell df "case_closed_Yes").
Proof.
  exists (feature_frame w). split; [reflexivity|].
  change (cell (feature_frame w) "case_closed_Yes")
    with (Some (PyInt (indicator (case_closed w) "Yes"))).
  split; [|split; [|split; reflexivity]].
  - rewrite <- indicator_1_iff. split; intros H; [injection H as H | rewrite H];
      auto.
  - rewrite <- indicator_0_iff. split; intros H; [injection H as H | rewrite H];
      auto.
Qed.
